(** * A relay bot: forwarding, reply routing and the away auto-reply

    Shallow embedding of [bot.py].  The handlers of the bot are
    asynchronous callbacks that read and update the shared dictionary
    [context.bot_data] and talk to two outside services: the chat
    transport ([forward_message], [send_message], [reply_text]) and the
    text generation client.  Both services may raise.  The embedding
    threads a world (the dictionary, the history of outside calls and
    the log) through a small state-and-exception monad; what an outside
    call answers is decided by an environment that sees the whole
    history, so two identical calls may fare differently. *)

From stdpp Require Import gmap strings list pretty.

Local Open Scope Z_scope.

(** ** Python values *)

(** [s[:n]] on a string. *)
Definition slice_to (n : nat) (s : string) : string := String.substring 0 n s.

(** Truthiness of an optional string ([None] and [""] are falsy). *)
Definition truthy_str (o : option string) : bool :=
  match o with
  | Some (String _ _) => true
  | _ => false
  end.

(** Truthiness of an optional integer ([None] and [0] are falsy). *)
Definition truthy_int (o : option Z) : bool :=
  match o with
  | Some z => negb (z =? 0)
  | None => false
  end.

(** [a or b] on strings, [a] possibly [None]. *)
Definition str_or (a : option string) (b : string) : string :=
  if truthy_str a then default b a else b.

Definition newline : string := String (Ascii.ascii_of_nat 10) "".

(** ** Objects of the chat transport *)

Record User := { user_id : Z; first_name : string }.

Inductive Attachment :=
  NoAttachment | Photo | Sticker | Document | Voice | OtherAttachment.

(** The fields of a message the bot looks at.  [reply_to_message] holds
    the [message_id] of the message replied to, the only field of it the
    bot reads; [bot_command] is the name of the command the text starts
    with, if it starts with one. *)
Record Message := {
  message_id : Z;
  chat_id : Z;
  text : option string;
  reply_to_message : option Z;
  attachment : Attachment;
  bot_command : option string
}.

Record Update := { effective_user : User; message : Message }.

Definition effective_chat_id (update : Update) : Z := chat_id (message update).

(** ** Outside calls and their history *)

Inductive Call :=
| forward_message (to_chat_id from_chat_id msg_id : Z)
| send_message (to_chat_id : Z) (body : string)
| reply_text (msg : Message) (body : string).

(** What the generation client gives back: its [text] attribute (absent
    or [None] is [None] here) and its [str()]. *)
Record Response := { response_text : option string; response_str : string }.

(** One outside call with its outcome.  A transport call answers the
    id of the message it produced, a generation call a response; [None]
    stands for a raised exception. *)
Inductive Event :=
| Sent (c : Call) (outcome : option Z)
| Generated (prompt : string) (outcome : option Response).

(** ** The persisted dictionary *)

(** [context.bot_data]: either key may be missing. *)
Record BotData := {
  admin_available : option bool;
  forwarded_map : option (gmap Z Z)
}.

Record World := {
  bot_data : BotData;
  trace : list Event;
  log : list string
}.

(** [bot_data.setdefault("forwarded_map", {})[f] = o] *)
Definition recordForward (f o : Z) (bd : BotData) : BotData :=
  {| admin_available := admin_available bd;
     forwarded_map := Some (<[f := o]> (default ∅ (forwarded_map bd))) |}.

(** [bot_data.get("forwarded_map", {}).get(f)] *)
Definition resolveOrigin (f : Z) (bd : BotData) : option Z :=
  default ∅ (forwarded_map bd) !! f.

(** [bot_data["admin_available"] = b] *)
Definition setAvailability (b : bool) (bd : BotData) : BotData :=
  {| admin_available := Some b; forwarded_map := forwarded_map bd |}.

(** [bot_data.get("admin_available", False)] *)
Definition getAvailability (bd : BotData) : bool :=
  default false (admin_available bd).

(** ** The monad of handlers *)

Inductive Result (A : Type) :=
| Ok (a : A)
| Raise.
Arguments Ok {A} a.
Arguments Raise {A}.

Definition M (A : Type) : Type := World → Result A * World.

#[export] Instance M_ret : MRet M := λ A a w, (Ok a, w).

#[export] Instance M_bind : MBind M := λ A B k m w,
  match m w with
  | (Ok a, w') => k a w'
  | (Raise, w') => (Raise, w')
  end.

(** [try: body  except Exception: handler] *)
Definition try_except {A} (body handler : M A) : M A :=
  λ w, match body w with
       | (Ok a, w') => (Ok a, w')
       | (Raise, w') => handler w'
       end.

(** [wp m w Q]: running [m] from [w] ends in a result and a world that
    satisfy [Q]. *)
Definition wp {A} (m : M A) (w : World) (Q : Result A → World → Prop) : Prop :=
  Q (m w).1 (m w).2.

Definition get_bot_data : M BotData := λ w, (Ok (bot_data w), w).

Definition update_bot_data (f : BotData → BotData) : M unit :=
  λ w, (Ok tt, {| bot_data := f (bot_data w); trace := trace w; log := log w |}).

Definition write_log (line : string) : M unit :=
  λ w, (Ok tt, {| bot_data := bot_data w; trace := trace w; log := log w ++ [line] |}).

Definition push_event (e : Event) (w : World) : World :=
  {| bot_data := bot_data w; trace := trace w ++ [e]; log := log w |}.

(** The events a run added to the history. *)
Definition emitted (w w' : World) : list Event :=
  drop (length (trace w)) (trace w').

Definition is_generation (e : Event) : bool :=
  match e with Generated _ _ => true | Sent _ _ => false end.

(** The number of calls to the generation service in a history. *)
Definition generation_calls (es : list Event) : nat :=
  length (filter (λ e, is_generation e = true) es).

(** The texts the bot answered with [reply_text], in order. *)
Definition replies (es : list Event) : list string :=
  omap (λ e, match e with
             | Sent (reply_text _ body) _ => Some body
             | _ => None
             end) es.

(** ** Fixed texts *)

Definition NOTE_48H : string := "Admin will reply in 48 hours.".
Definition NOW_AVAILABLE : string := "Admin is now AVAILABLE.".
Definition NOW_AWAY : string := "Admin is now AWAY.".
Definition CANNOT_FIND : string := "❌ Cannot find the user to reply to.".
Definition SENT_TO_USER : string := "✅ Sent to user.".
Definition FAILED_TO_SEND : string := "❌ Failed to send message to user.".
Definition IM_REPLYING : string := "Admin is away — I'm replying... 🤖".
Definition NO_CLIENT_FALLBACK : string := "Sorry, I cannot reply right now.".
Definition ERROR_FALLBACK : string := "Sorry — I can't reply right now.".
Definition PROMPT_PREFIX : string :=
  "Reply politely and briefly to this user message: ".


Section Bot.

(** The configured administrator; start-up refuses [0]. *)
Variable ADMIN_ID : Z.

(** The chat transport: given the history so far, the outcome of a call. *)
Variable transport : list Event → Call → option Z.

(** [genai_client]: [None] when the client is not configured; otherwise
    [models.generate_content], given the history and the prompt. *)
Variable genai_client : option (list Event → string → option Response).

(** An awaited transport call. *)
Definition await (c : Call) : M Z :=
  λ w, let r := transport (trace w) c in
       match r with
       | Some i => (Ok i, push_event (Sent c r) w)
       | None => (Raise, push_event (Sent c r) w)
       end.

Definition generate_content
    (client : list Event → string → option Response) (prompt : string)
    : M Response :=
  λ w, let r := client (trace w) prompt in
       match r with
       | Some resp => (Ok resp, push_event (Generated prompt r) w)
       | None => (Raise, push_event (Generated prompt r) w)
       end.

(** [ask_gemini]: the inner [call] runs in a worker thread and is awaited. *)
Definition ask_gemini (prompt : string) : M string :=
  match genai_client with
  | None => mret NO_CLIENT_FALLBACK
  | Some client =>
      try_except
        (response ← generate_content client prompt;
         mret (str_or (response_text response) (response_str response)))
        (write_log "Gemini error" ;;
         mret ERROR_FALLBACK)
  end.

(** *** Commands *)


Definition available_cmd (update : Update) : M unit :=
  if decide (user_id (effective_user update) ≠ ADMIN_ID) then mret tt
  else
    update_bot_data (setAvailability true) ;;
    await (reply_text (message update) NOW_AVAILABLE) ;;
    mret tt.

Definition away_cmd (update : Update) : M unit :=
  if decide (user_id (effective_user update) ≠ ADMIN_ID) then mret tt
  else
    update_bot_data (setAvailability false) ;;
    await (reply_text (message update) NOW_AWAY) ;;
    mret tt.

(** *** The administrator answers a forwarded message *)

Definition admin_reply_handler (update : Update) : M unit :=
  if decide (user_id (effective_user update) ≠ ADMIN_ID) then mret tt
  else
    let msg := message update in
    match reply_to_message msg with
    | None => mret tt
    | Some replied_message_id =>
        bd ← get_bot_data;
        let user_chat_id := resolveOrigin replied_message_id bd in
        if negb (truthy_int user_chat_id) then
          await (reply_text msg CANNOT_FIND) ;;
          mret tt
        else
          let user_chat := default 0 user_chat_id in
          try_except
            ((if truthy_str (text msg) then
                await (send_message user_chat (default "" (text msg)))
              else
                await (forward_message user_chat (chat_id msg) (message_id msg))) ;;
             await (reply_text msg SENT_TO_USER) ;;
             mret tt)
            (write_log "Failed to send admin reply" ;;
             await (reply_text msg FAILED_TO_SEND) ;;
             mret tt)
    end.

(** *** A message of a user *)

(** [reply[:3990] + "..."] when [len(reply) > 4000]. *)
Definition truncate_reply (reply : string) : string :=
  if decide (4000 < String.length reply)%nat
  then slice_to 3990 reply +:+ "..."
  else reply.

Definition handle_message (update : Update) : M unit :=
  let user := effective_user update in
  let text := str_or (text (message update)) "" in
  let chat_id := effective_chat_id update in
  write_log ("Message from " +:+ first_name user +:+ " (" +:+
             pretty (user_id user) +:+ "): " +:+
             (if truthy_str (Some text) then slice_to 200 text else "<media>")) ;;
  try_except
    (forwarded ← await (forward_message ADMIN_ID chat_id
                           (message_id (message update)));
     update_bot_data (recordForward forwarded chat_id))
    (write_log "Forward failed; sending fallback to admin" ;;
     try_except
       (await (send_message ADMIN_ID
                 ("Message from " +:+ first_name user +:+ " (" +:+
                  pretty (user_id user) +:+ "):" +:+ newline +:+ text)) ;;
        mret tt)
       (write_log "Fallback notify failed")) ;;
  bd ← get_bot_data;
  if getAvailability bd then
    try_except
      (await (reply_text (message update) NOTE_48H) ;; mret tt)
      (write_log "Failed to reply to user when admin available")
  else
    (match genai_client with
     | Some _ =>
         await (reply_text (message update) IM_REPLYING) ;;
         reply ← ask_gemini (PROMPT_PREFIX +:+ text);
         try_except
           (await (reply_text (message update) (truncate_reply reply)) ;; mret tt)
           (write_log "Failed to send Gemini reply")
     | None =>
         try_except
           (await (reply_text (message update) NOTE_48H) ;; mret tt)
           (write_log "Failed to send simple reply")
     end) ;;
    try_except
      (await (reply_text (message update) NOTE_48H) ;; mret tt)
      (write_log "Failed to send 48hr note").

Definition photo_handler (update : Update) : M unit :=
  handle_message update.

End Bot.

(** ** Start-up *)

(** The module-level code that reads the environment.  [os.environ]
    (after [load_dotenv]) is a finite map from names to strings. *)
Module Startup.

(** How start-up ends: the value built, [SystemExit] with its text, or
    the [ValueError] of [int] on a string that is no integer. *)
Inductive Outcome (A : Type) :=
| Started (a : A)
| SystemExit (reason : string)
| ValueError.
Arguments Started {A} a.
Arguments SystemExit {A} reason.
Arguments ValueError {A}.

(** [a or b] on optional strings. *)
Definition opt_or (a b : option string) : option string :=
  if truthy_str a then a else b.

(** The module-level names. *)
Record Settings := {
  TELEGRAM_TOKEN : string;
  ADMIN_ID : Z;
  GEMINI_API_KEY : option string;
  WEBHOOK_BASE_URL : option string;
  genai_client : option (list Event → string → option Response)
}.

Section Environment.

(** [int] on a string; [None] is [ValueError]. *)
Variable int : string → option Z.

(** Whether [from google import genai] succeeded. *)
Variable HAS_GEMINI : bool.

(** [genai.Client(api_key=...)]; [None] when it raises. *)
Variable Client : string → option (list Event → string → option Response).

Definition module_init (environ : gmap string string) : Outcome Settings :=
  let token := environ !! "TELEGRAM_TOKEN" in
  match int (default "0" (environ !! "ADMIN_ID")) with
  | None => ValueError
  | Some admin =>
      let key := opt_or (environ !! "GEMINI_API_KEY")
                        (environ !! "GOOGLE_API_KEY") in
      let base := environ !! "WEBHOOK_BASE_URL" in
      if negb (truthy_str token) then
        SystemExit "TELEGRAM_TOKEN not set in environment"
      else if admin =? 0 then
        SystemExit "ADMIN_ID not set (your Telegram numeric id)"
      else
        Started {| TELEGRAM_TOKEN := default "" token;
                   ADMIN_ID := admin;
                   GEMINI_API_KEY := key;
                   WEBHOOK_BASE_URL := base;
                   genai_client :=
                     if HAS_GEMINI && truthy_str key
                     then Client (default "" key)
                     else None |}
  end.

End Environment.

End Startup.

(** The [send_message] calls of a history: chat and text, in order. *)
Definition sent_messages (es : list Event) : list (Z * string) :=
  omap (λ e, match e with
             | Sent (send_message chat body) _ => Some (chat, body)
             | _ => None
             end) es.

(** ** Concrete inputs *)

(** A string of [n] copies of one character. *)
Fixpoint repeat_char (c : Ascii.ascii) (n : nat) : string :=
  match n with
  | O => ""
  | S n => String c (repeat_char c n)
  end.

Module Sample.

Definition ADMIN : Z := 1000.

Definition alice : User := {| user_id := 7; first_name := "Alice" |}.
Definition admin : User := {| user_id := ADMIN; first_name := "Admin" |}.

(** A plain text message of a user, in the private chat with the bot. *)
Definition hello : Message :=
  {| message_id := 5; chat_id := 7; text := Some "Hello";
     reply_to_message := None; attachment := NoAttachment;
     bot_command := None |}.


(** [/available] typed by a user. *)
Definition slash_available : Message :=
  {| message_id := 8; chat_id := 7; text := Some "/available";
     reply_to_message := None; attachment := NoAttachment;
     bot_command := Some "available" |}.

(** The administrator answering message 31 of the chat with the bot. *)
Definition admin_answer : Message :=
  {| message_id := 40; chat_id := ADMIN; text := Some "On my way";
     reply_to_message := Some 31; attachment := NoAttachment;
     bot_command := None |}.

Definition from_alice (m : Message) : Update :=
  {| effective_user := alice; message := m |}.

Definition from_admin (m : Message) : Update :=
  {| effective_user := admin; message := m |}.

(** The administrator answering the message the transport numbered 100. *)
Definition answer_to_100 : Message :=
  {| message_id := 40; chat_id := ADMIN; text := Some "On my way";
     reply_to_message := Some 100; attachment := NoAttachment;
     bot_command := None |}.

(** A transport that delivers everything and numbers the messages. *)
Definition delivers : list Event → Call → option Z :=
  λ history _, Some (100 + Z.of_nat (length history)).

Definition no_client : option (list Event → string → option Response) := None.

Definition polite_client : option (list Event → string → option Response) :=
  Some (λ _ _, Some {| response_text := Some "Hi there"; response_str := "" |}).

Definition failing_client : option (list Event → string → option Response) :=
  Some (λ _ _, None).

Definition world_of (bd : BotData) : World :=
  {| bot_data := bd; trace := []; log := [] |}.

Definition fresh : World :=
  world_of {| admin_available := None; forwarded_map := None |}.

Definition admin_present : World :=
  world_of {| admin_available := Some true; forwarded_map := None |}.

Definition table_1_10 : BotData :=
  {| admin_available := None; forwarded_map := Some {[ 1 := 10 ]} |}.

(** Message 31 is recorded with the falsy origin [0]. *)
Definition table_31_0 : BotData :=
  {| admin_available := None; forwarded_map := Some {[ 31 := 0 ]} |}.

Definition long_reply : string := repeat_char (Ascii.ascii_of_nat 97) 4001.

End Sample.

Module MoreSample.

Import Sample.


(** The administrator answering with a photo: no text. *)
Definition photo_answer_to_100 : Message :=
  {| message_id := 43; chat_id := ADMIN; text := None;
     reply_to_message := Some 100; attachment := Photo;
     bot_command := None |}.

(** [/available] and [/away] typed by the administrator. *)
Definition admin_available_cmd : Message :=
  {| message_id := 41; chat_id := ADMIN; text := Some "/available";
     reply_to_message := None; attachment := NoAttachment;
     bot_command := Some "available" |}.

Definition admin_away_cmd : Message :=
  {| message_id := 42; chat_id := ADMIN; text := Some "/away";
     reply_to_message := None; attachment := NoAttachment;
     bot_command := Some "away" |}.

(** Message 31 of the administrator's chat is the forwarded copy of a
    message from chat 7. *)
Definition table_31_7 : BotData :=
  {| admin_available := None; forwarded_map := Some {[ 31 := 7 ]} |}.

(** A transport on which the I-am-replying notice raises and everything
    else is delivered. *)
Definition drops_notice : list Event → Call → option Z :=
  λ history c,
    match c with
    | reply_text _ body =>
        if decide (body = IM_REPLYING) then None
        else Some (100 + Z.of_nat (length history))
    | _ => Some (100 + Z.of_nat (length history))
    end.

Definition a_client : list Event → string → option Response :=
  λ _ _, Some {| response_text := Some "Hi there"; response_str := "" |}.

(** An [int] that knows the numerals of the sample environment. *)
Definition int : string → option Z :=
  λ s, if decide (s = "0") then Some 0
       else if decide (s = "1000") then Some 1000
       else None.

Definition make_client : string → option (list Event → string → option Response) :=
  λ _, Some a_client.

Definition environ : gmap string string :=
  {[ "TELEGRAM_TOKEN" := "123:abc"; "ADMIN_ID" := "1000";
     "WEBHOOK_BASE_URL" := "https://bot.example" ]}.

Definition environ_without_admin : gmap string string :=
  {[ "TELEGRAM_TOKEN" := "123:abc" ]}.

Definition environ_with_google_key : gmap string string :=
  <[ "GOOGLE_API_KEY" := "k-1" ]> environ.

End MoreSample.

(** * Properties *)

(** ** Strings *)

Section Strings.

Lemma length_append (s t : string) :
  String.length (s +:+ t) = (String.length s + String.length t)%nat.
Proof.
  induction s as [|c s IH]; [done|].
  change (String c s +:+ t) with (String c (s +:+ t)). simpl. by rewrite IH.
Qed.

Lemma length_slice_to (n : nat) (s : string) :
  String.length (slice_to n s) = (n `min` String.length s)%nat.
Proof.
  unfold slice_to. revert s.
  induction n as [|n IH]; intros [|c s]; simpl; auto.
Qed.

Lemma length_repeat_char c n : String.length (repeat_char c n) = n.
Proof. induction n; simpl; congruence. Qed.

End Strings.

(** ** The routing table *)

Module Routing.

Lemma resolve_record_ne (f g o : Z) (bd : BotData) :
  g ≠ f → resolveOrigin g (recordForward f o bd) = resolveOrigin g bd.
Proof.
  intros Hne. unfold resolveOrigin, recordForward. simpl.
  by rewrite lookup_insert_ne.
Qed.

Lemma record_keeps_availability (f o : Z) (bd : BotData) :
  getAvailability (recordForward f o bd) = getAvailability bd.
Proof. done. Qed.

Lemma resolve_None_iff (f : Z) (bd : BotData) :
  resolveOrigin f bd = None ↔ f ∉ dom (default ∅ (forwarded_map bd)).
Proof. unfold resolveOrigin. by rewrite not_elem_of_dom. Qed.

Lemma resolve_record_eq (f o : Z) (bd : BotData) :
  resolveOrigin f (recordForward f o bd) = Some o.
Proof.
  unfold resolveOrigin, recordForward. simpl. apply lookup_insert_eq.
Qed.

(** C7, as stated, fails: recording a second origin for an id that is
    already a key replaces the origin that was there, so the table is
    not left unchanged. *)
Lemma record_duplicate_overwrites :
  resolveOrigin 1 Sample.table_1_10 = Some 10 ∧
  resolveOrigin 1 (recordForward 1 20 Sample.table_1_10) = Some 20 ∧
  recordForward 1 20 Sample.table_1_10 ≠ Sample.table_1_10.
Proof.
  split; [done|]. split; [done|].
  intros Heq. apply (f_equal (resolveOrigin 1)) in Heq. done.
Qed.

(** C7, amended: recording a mapping for an id that is already a key
    assigns the new origin to that id and leaves every other entry and
    the availability flag as they were; the dictionary is unchanged
    exactly when the origin recorded is the one already there. *)
Theorem record_duplicate (f o o' : Z) (bd : BotData) :
  resolveOrigin f bd = Some o →
  resolveOrigin f (recordForward f o' bd) = Some o' ∧
  (∀ g, g ≠ f → resolveOrigin g (recordForward f o' bd) = resolveOrigin g bd) ∧
  admin_available (recordForward f o' bd) = admin_available bd ∧
  (recordForward f o' bd = bd ↔ o' = o).
Proof.
  intros Hf. split; [apply resolve_record_eq|].
  split; [intros g Hg; by apply resolve_record_ne|].
  split; [done|]. split.
  - intros Heq. apply (f_equal (resolveOrigin f)) in Heq.
    rewrite resolve_record_eq, Hf in Heq. congruence.
  - intros ->. destruct bd as [a [m|]]; unfold resolveOrigin in Hf; simpl in Hf.
    + unfold recordForward. simpl. by rewrite insert_id.
    + by rewrite lookup_empty in Hf.
Qed.

Lemma record_duplicate_witness :
  resolveOrigin 1 (recordForward 1 20 Sample.table_1_10) = Some 20 ∧
  (∀ g, g ≠ 1 →
     resolveOrigin g (recordForward 1 20 Sample.table_1_10)
     = resolveOrigin g Sample.table_1_10) ∧
  admin_available (recordForward 1 20 Sample.table_1_10)
  = admin_available Sample.table_1_10 ∧
  (recordForward 1 20 Sample.table_1_10 = Sample.table_1_10 ↔ 20 = 10).
Proof. apply (record_duplicate 1 10 20 Sample.table_1_10). reflexivity. Defined.

End Routing.

(** ** Truncation of the generated reply *)

Module Truncation.

Lemma truncate_reply_long (reply : string) :
  (4000 < String.length reply)%nat →
  truncate_reply reply = slice_to 3990 reply +:+ "..." ∧
  String.length (slice_to 3990 reply) = 3990%nat ∧
  String.length (truncate_reply reply) = 3993%nat.
Proof.
  intros Hlen. unfold truncate_reply. rewrite decide_True by done.
  assert (String.length (slice_to 3990 reply) = 3990%nat) as Hbody
    by (rewrite length_slice_to; lia).
  split; [done|]. split; [done|]. rewrite length_append, Hbody. reflexivity.
Qed.

Lemma truncate_reply_short (reply : string) :
  (String.length reply ≤ 4000)%nat → truncate_reply reply = reply.
Proof. intros Hlen. unfold truncate_reply. rewrite decide_False; [done|lia]. Qed.

Lemma length_long_reply : String.length Sample.long_reply = 4001%nat.
Proof. unfold Sample.long_reply. apply length_repeat_char. Qed.

(** C4, as stated, fails: a generated text of 4001 characters goes out
    with 3993 characters, not 4000. *)
Lemma truncated_length_not_4000 :
  String.length Sample.long_reply = 4001%nat ∧
  String.length (truncate_reply Sample.long_reply) = 3993%nat ∧
  String.length (truncate_reply Sample.long_reply) ≠ 4000%nat.
Proof.
  pose proof length_long_reply as Hlen.
  destruct (truncate_reply_long Sample.long_reply) as (_ & _ & Hcut); [lia|].
  split; [done|]. split; [done|]. lia.
Qed.

(** C4, amended: a generated text longer than 4000 characters is cut to
    its first 3990 characters followed by the three-character marker
    ["..."], 3993 characters in all; a text of at most 4000 characters is
    sent unchanged; in both cases at most 4000 characters go out. *)
Theorem truncate_reply_spec (reply : string) :
  ((4000 < String.length reply)%nat →
     truncate_reply reply = slice_to 3990 reply +:+ "..." ∧
     String.length (slice_to 3990 reply) = 3990%nat ∧
     String.length (truncate_reply reply) = 3993%nat) ∧
  ((String.length reply ≤ 4000)%nat → truncate_reply reply = reply) ∧
  (String.length (truncate_reply reply) ≤ 4000)%nat.
Proof.
  split; [apply truncate_reply_long|]. split; [apply truncate_reply_short|].
  destruct (Nat.le_gt_cases (String.length reply) 4000) as [Hs|Hl].
  - rewrite truncate_reply_short; lia.
  - destruct (truncate_reply_long reply Hl) as (_ & _ & ->). lia.
Qed.

Lemma truncate_reply_spec_witness :
  String.length (truncate_reply Sample.long_reply) = 3993%nat ∧
  truncate_reply "Hi there" = "Hi there".
Proof.
  split.
  - apply (proj1 (truncate_reply_spec Sample.long_reply)).
    rewrite length_long_reply. lia.
  - apply (proj1 (proj2 (truncate_reply_spec "Hi there"))). simpl. lia.
Defined.

End Truncation.

(** ** Handlers *)

Lemma emitted_app (w : World) (es : list Event) bd lg :
  emitted w {| bot_data := bd; trace := trace w ++ es; log := lg |} = es.
Proof. unfold emitted. simpl. apply drop_app_length. Qed.

Lemma emitted_refl (w : World) : emitted w w = [].
Proof. unfold emitted. apply drop_all. Qed.

Lemma emitted_same_trace (w : World) bd lg :
  emitted w {| bot_data := bd; trace := trace w; log := lg |} = [].
Proof. unfold emitted. simpl. apply drop_all. Qed.

Ltac unfold_monad :=
  unfold mbind, M_bind, mret, M_ret, try_except, await, generate_content,
    get_bot_data, update_bot_data, write_log, push_event in *.

Ltac run :=
  unfold_monad; cbn -[pretty String.append String.length slice_to] in *.

Ltac settle_trace :=
  rewrite <- ?(assoc_L (++)); cbn [app];
  rewrite ?emitted_app, ?emitted_same_trace, ?emitted_refl.

(** *** Rules for running a handler step by step *)

Section Rules.

Context {A B : Type}.

Lemma wp_ret (a : A) w (Q : Result A → World → Prop) :
  Q (Ok a) w → wp (mret a) w Q.
Proof. done. Qed.

Lemma wp_bind (m : M A) (k : A → M B) w (Q : Result B → World → Prop) :
  wp m w (λ r w', match r with
                  | Ok a => wp (k a) w' Q
                  | Raise => Q Raise w'
                  end) →
  wp (m ≫= k) w Q.
Proof.
  unfold wp, mbind, M_bind. by destruct (m w) as [[a|] w'].
Qed.

Lemma wp_try (body handler : M A) w (Q : Result A → World → Prop) :
  wp body w (λ r w', match r with
                     | Ok a => Q (Ok a) w'
                     | Raise => wp handler w' Q
                     end) →
  wp (try_except body handler) w Q.
Proof.
  unfold wp, try_except. by destruct (body w) as [[a|] w'].
Qed.


End Rules.

Lemma wp_await transport (c : Call) w (Q : Result Z → World → Prop) :
  (∀ o, transport (trace w) c = o →
        Q (match o with Some i => Ok i | None => Raise end)
          (push_event (Sent c o) w)) →
  wp (await transport c) w Q.
Proof.
  intros HQ. specialize (HQ _ eq_refl). unfold wp, await.
  by destruct (transport (trace w) c).
Qed.

Lemma wp_generate client (prompt : string) w (Q : Result Response → World → Prop) :
  (∀ o, client (trace w) prompt = o →
        Q (match o with Some r => Ok r | None => Raise end)
          (push_event (Generated prompt o) w)) →
  wp (generate_content client prompt) w Q.
Proof.
  intros HQ. specialize (HQ _ eq_refl). unfold wp, generate_content.
  by destruct (client (trace w) prompt).
Qed.

Lemma wp_write_log (line : string) w (Q : Result unit → World → Prop) :
  Q (Ok tt) {| bot_data := bot_data w; trace := trace w;
               log := log w ++ [line] |} →
  wp (write_log line) w Q.
Proof. done. Qed.

Lemma wp_get w (Q : Result BotData → World → Prop) :
  Q (Ok (bot_data w)) w → wp get_bot_data w Q.
Proof. done. Qed.

Lemma wp_update (f : BotData → BotData) w (Q : Result unit → World → Prop) :
  Q (Ok tt) {| bot_data := f (bot_data w); trace := trace w; log := log w |} →
  wp (update_bot_data f) w Q.
Proof. done. Qed.

Ltac wp_norm :=
  cbv beta iota; unfold push_event;
  cbn [bot_data trace log];
  rewrite ?Routing.record_keeps_availability.

(** One step of a handler; outside calls split on their outcome. *)
Ltac wp_step :=
  lazymatch goal with
  | |- wp (mret _) _ _ => apply wp_ret
  | |- wp (mbind _ _) _ _ => apply wp_bind
  | |- wp (try_except _ _) _ _ => apply wp_try
  | |- wp (await _ _) _ _ =>
      let o := fresh "outcome" in
      let E := fresh "Hcall" in
      apply wp_await; intros [o|] E
  | |- wp (generate_content _ _) _ _ =>
      let o := fresh "response" in
      let E := fresh "Hgen" in
      apply wp_generate; intros [o|] E
  | |- wp (write_log _) _ _ => apply wp_write_log
  | |- wp get_bot_data _ _ => apply wp_get
  | |- wp (update_bot_data _) _ _ => apply wp_update
  | |- wp (ask_gemini _ _) _ _ => unfold ask_gemini
  | |- wp (if ?b then _ else _) _ _ =>
      let E := fresh "Hif" in destruct b eqn:E
  | |- wp (match ?x with _ => _ end) _ _ =>
      let E := fresh "Hcase" in destruct x eqn:E
  end; wp_norm.

Section HandlerProperties.

Context (ADMIN_ID : Z) (transport : list Event → Call → option Z)
        (genai_client : option (list Event → string → option Response)).

(** Case analysis on the outcome of the next transport call. *)
Ltac step_call :=
  match goal with
  | |- context [transport ?h ?c] =>
      let o := fresh "outcome" in
      let E := fresh "Hcall" in
      destruct (transport h c) as [o|] eqn:E;
      cbn -[pretty String.append String.length slice_to] in *
  end.

(** C8: an [available] or [away] command of anybody but the
    administrator returns at once: the dictionary, the history of
    outside calls (so no reply of any kind) and the log stay as they
    were. *)
Theorem commands_ignore_strangers (update : Update) (w : World) :
  user_id (effective_user update) ≠ ADMIN_ID →
  available_cmd ADMIN_ID transport update w = (Ok tt, w) ∧
  away_cmd ADMIN_ID transport update w = (Ok tt, w).
Proof.
  intros Hne. unfold available_cmd, away_cmd.
  rewrite !decide_True by done. done.
Qed.


(** The administrator's reply when the looked-up origin is falsy: one
    answer with the not-found text in the chat of the reply itself, and
    nothing else. *)
Lemma admin_reply_falsy (update : Update) (w : World) (replied : Z) :
  user_id (effective_user update) = ADMIN_ID →
  reply_to_message (message update) = Some replied →
  truthy_int (resolveOrigin replied (bot_data w)) = false →
  let notice := reply_text (message update) CANNOT_FIND in
  let w' := (admin_reply_handler ADMIN_ID transport update w).2 in
  emitted w w' = [Sent notice (transport (trace w) notice)] ∧
  bot_data w' = bot_data w ∧ log w' = log w.
Proof.
  intros Hadmin Hreply Hfalsy. unfold admin_reply_handler.
  rewrite decide_False by (intros Hne; done).
  rewrite Hreply. run. rewrite Hfalsy. cbn.
  destruct (transport (trace w) _); cbn; by settle_trace.
Qed.

(** C6: when the administrator replies to a message whose id is not a
    key of the routing table, the only outside call is one answer with
    the not-found text in the chat of that reply (nothing goes to any
    user), and the routing table and the availability flag are
    unchanged. *)
Theorem admin_reply_unknown_id (update : Update) (w : World) (replied : Z) :
  user_id (effective_user update) = ADMIN_ID →
  reply_to_message (message update) = Some replied →
  replied ∉ dom (default ∅ (forwarded_map (bot_data w))) →
  let notice := reply_text (message update) CANNOT_FIND in
  let w' := (admin_reply_handler ADMIN_ID transport update w).2 in
  emitted w w' = [Sent notice (transport (trace w) notice)] ∧
  forwarded_map (bot_data w') = forwarded_map (bot_data w) ∧
  admin_available (bot_data w') = admin_available (bot_data w).
Proof.
  intros Hadmin Hreply Hkey.
  apply Routing.resolve_None_iff in Hkey.
  destruct (admin_reply_falsy update w replied Hadmin Hreply) as (He & Hbd & _).
  { by rewrite Hkey. }
  cbn zeta. rewrite He, Hbd. done.
Qed.

(** C10: not-found is decided by the truthiness of the looked-up value:
    when the replied-to id is a key of the routing table but its origin
    is [0], the handler answers with the not-found text and sends
    nothing to conversation [0]. *)
Theorem admin_reply_zero_origin (update : Update) (w : World) (replied : Z) :
  user_id (effective_user update) = ADMIN_ID →
  reply_to_message (message update) = Some replied →
  resolveOrigin replied (bot_data w) = Some 0 →
  let notice := reply_text (message update) CANNOT_FIND in
  let w' := (admin_reply_handler ADMIN_ID transport update w).2 in
  replied ∈ dom (default ∅ (forwarded_map (bot_data w))) ∧
  emitted w w' = [Sent notice (transport (trace w) notice)] ∧
  bot_data w' = bot_data w.
Proof.
  intros Hadmin Hreply Hzero. split.
  { apply elem_of_dom. unfold resolveOrigin in Hzero. by rewrite Hzero. }
  destruct (admin_reply_falsy update w replied Hadmin Hreply) as (He & Hbd & _).
  { by rewrite Hzero. }
  done.
Qed.

(** With a truthy origin and a text, the administrator's text goes to
    the recorded conversation. *)
Lemma admin_reply_routes (update : Update) (w : World) (replied o : Z) :
  user_id (effective_user update) = ADMIN_ID →
  reply_to_message (message update) = Some replied →
  resolveOrigin replied (bot_data w) = Some o → o ≠ 0 →
  truthy_str (text (message update)) = true →
  ∃ outcome rest,
    emitted w (admin_reply_handler ADMIN_ID transport update w).2
    = Sent (send_message o (default "" (text (message update)))) outcome :: rest.
Proof.
  intros Hadmin Hreply Ho Hne Htext. unfold admin_reply_handler.
  rewrite decide_False by (intros Hx; done).
  rewrite Hreply. run. rewrite Ho. cbn.
  destruct (Z.eqb_spec o 0) as [|_]; [done|]. cbn. rewrite Htext.
  repeat step_call; settle_trace; eauto.
Qed.

(** The first outside call of the inbound handler is always the attempt
    to forward the message to the administrator. *)
Lemma handle_message_forwards (update : Update) (w : World) :
  ∃ outcome rest,
    emitted w (handle_message ADMIN_ID transport genai_client update w).2
    = Sent (forward_message ADMIN_ID (chat_id (message update))
              (message_id (message update))) outcome :: rest.
Proof.
  change (wp (handle_message ADMIN_ID transport genai_client update) w
            (λ _ w', ∃ outcome rest, emitted w w'
               = Sent (forward_message ADMIN_ID (chat_id (message update))
                         (message_id (message update))) outcome :: rest)).
  unfold handle_message, effective_chat_id. cbv zeta.
  repeat wp_step; settle_trace; eauto.
Qed.

(** When the forward succeeds, the id it produced resolves to the chat
    the message came from once the handler is done. *)
Lemma handle_message_records (update : Update) (w : World) (forwarded : Z) :
  transport (trace w)
    (forward_message ADMIN_ID (chat_id (message update))
       (message_id (message update))) = Some forwarded →
  resolveOrigin forwarded
    (bot_data (handle_message ADMIN_ID transport genai_client update w).2)
  = Some (chat_id (message update)).
Proof.
  intros Hfwd.
  change (wp (handle_message ADMIN_ID transport genai_client update) w
            (λ _ w', resolveOrigin forwarded (bot_data w')
                     = Some (chat_id (message update)))).
  unfold handle_message, effective_chat_id. cbv zeta.
  do 6 wp_step.
  - cbn [trace] in Hcall. rewrite Hfwd in Hcall. injection Hcall as <-.
    repeat wp_step; apply Routing.resolve_record_eq.
  - cbn [trace] in Hcall. congruence.
Qed.

(** C5: while the administrator is available, handling a message makes
    no call to the generation service, whatever the transport does. *)
Theorem no_generation_when_available (update : Update) (w : World) :
  getAvailability (bot_data w) = true →
  generation_calls
    (emitted w (handle_message ADMIN_ID transport genai_client update w).2)
  = 0%nat.
Proof.
  intros Hav.
  change (wp (handle_message ADMIN_ID transport genai_client update) w
            (λ _ w', generation_calls (emitted w w') = 0%nat)).
  unfold handle_message, effective_chat_id. cbv zeta.
  do 6 (wp_step; try wp_step).
  all: repeat (wp_step; try congruence); settle_trace; done.
Qed.






End HandlerProperties.

(** ** The properties on concrete runs *)

Module Runs.

Import Sample.



Lemma no_generation_when_available_witness :
  generation_calls
    (emitted admin_present
       (handle_message ADMIN delivers polite_client (from_alice hello)
          admin_present).2) = 0%nat.
Proof.
  apply (no_generation_when_available ADMIN delivers polite_client
           (from_alice hello) admin_present).
  reflexivity.
Defined.

Lemma commands_ignore_strangers_witness :
  available_cmd ADMIN delivers (from_alice slash_available) fresh = (Ok tt, fresh) ∧
  away_cmd ADMIN delivers (from_alice slash_available) fresh = (Ok tt, fresh).
Proof.
  apply (commands_ignore_strangers ADMIN delivers (from_alice slash_available)
           fresh).
  vm_compute. discriminate.
Defined.

Lemma admin_reply_unknown_id_witness :
  let notice := reply_text admin_answer CANNOT_FIND in
  let w' := (admin_reply_handler ADMIN delivers (from_admin admin_answer)
               fresh).2 in
  emitted fresh w' = [Sent notice (delivers (trace fresh) notice)] ∧
  forwarded_map (bot_data w') = forwarded_map (bot_data fresh) ∧
  admin_available (bot_data w') = admin_available (bot_data fresh).
Proof.
  apply (admin_reply_unknown_id ADMIN delivers (from_admin admin_answer)
           fresh 31).
  - reflexivity.
  - reflexivity.
  - simpl. apply not_elem_of_empty.
Defined.

Lemma admin_reply_zero_origin_witness :
  let notice := reply_text admin_answer CANNOT_FIND in
  let w := world_of table_31_0 in
  let w' := (admin_reply_handler ADMIN delivers (from_admin admin_answer) w).2 in
  31 ∈ dom (default ∅ (forwarded_map (bot_data w))) ∧
  emitted w w' = [Sent notice (delivers (trace w) notice)] ∧
  bot_data w' = bot_data w.
Proof.
  apply (admin_reply_zero_origin ADMIN delivers (from_admin admin_answer)
           (world_of table_31_0) 31).
  - reflexivity.
  - reflexivity.
  - reflexivity.
Defined.




(** A message of a user with the administrator away and no client: it is
    forwarded and answered twice. *)
Example plain_message_is_forwarded :
  emitted fresh (handle_message ADMIN delivers no_client (from_alice hello)
                   fresh).2
  = [ Sent (forward_message ADMIN 7 5) (Some 100);
      Sent (reply_text hello NOTE_48H) (Some 101);
      Sent (reply_text hello NOTE_48H) (Some 102) ].
Proof. reflexivity. Qed.

(** A forward followed by the administrator's answer to it reaches the
    chat the message came from, as a text or as a forwarded photo. *)
Example forward_then_answer :
  let w1 := (handle_message ADMIN delivers no_client (from_alice hello)
               fresh).2 in
  emitted w1 (admin_reply_handler ADMIN delivers (from_admin answer_to_100)
                w1).2
  = [ Sent (send_message 7 "On my way") (Some 103);
      Sent (reply_text answer_to_100 SENT_TO_USER) (Some 104) ] ∧
  emitted w1 (admin_reply_handler ADMIN delivers
                (from_admin MoreSample.photo_answer_to_100) w1).2
  = [ Sent (forward_message 7 ADMIN 43) (Some 103);
      Sent (reply_text MoreSample.photo_answer_to_100 SENT_TO_USER)
        (Some 104) ].
Proof. split; reflexivity. Qed.

(** The adapter on the three kinds of client. *)
Example ask_gemini_runs :
  (ask_gemini no_client "Hello" fresh).1 = Ok NO_CLIENT_FALLBACK ∧
  (ask_gemini failing_client "Hello" fresh).1 = Ok ERROR_FALLBACK ∧
  (ask_gemini polite_client "Hello" fresh).1 = Ok "Hi there".
Proof. repeat split. Qed.

End Runs.

(** * Further properties of the handlers *)

Section MoreHandlerProperties.

Context (ADMIN_ID : Z) (transport : list Event → Call → option Z)
        (genai_client : option (list Event → string → option Response)).

(** ** Commands *)


(** ** Availability commands *)

Lemma available_cmd_admin (update : Update) (w : World) :
  user_id (effective_user update) = ADMIN_ID →
  let said := reply_text (message update) NOW_AVAILABLE in
  let outcome := transport (trace w) said in
  available_cmd ADMIN_ID transport update w
  = (match outcome with Some _ => Ok tt | None => Raise end,
     {| bot_data := setAvailability true (bot_data w);
        trace := trace w ++ [Sent said outcome]; log := log w |}).
Proof.
  intros Hadmin. cbv zeta. unfold available_cmd.
  rewrite decide_False by (intros Hne; done).
  unfold mbind, M_bind, mret, M_ret, await, update_bot_data, push_event.
  cbn [trace bot_data log]. by destruct (transport (trace w) _).
Qed.

Lemma away_cmd_admin (update : Update) (w : World) :
  user_id (effective_user update) = ADMIN_ID →
  let said := reply_text (message update) NOW_AWAY in
  let outcome := transport (trace w) said in
  away_cmd ADMIN_ID transport update w
  = (match outcome with Some _ => Ok tt | None => Raise end,
     {| bot_data := setAvailability false (bot_data w);
        trace := trace w ++ [Sent said outcome]; log := log w |}).
Proof.
  intros Hadmin. cbv zeta. unfold away_cmd.
  rewrite decide_False by (intros Hne; done).
  unfold mbind, M_bind, mret, M_ret, await, update_bot_data, push_event.
  cbn [trace bot_data log]. by destruct (transport (trace w) _).
Qed.

(** X4: when the administrator issues [available] (resp. [away]) the
    flag reads true (resp. false) afterwards whatever the transport
    does with the confirmation, because the flag is written before the
    confirmation is sent; the routing table is untouched and the
    confirmation is the only outside call. *)
Theorem admin_sets_availability (update : Update) (w : World) :
  user_id (effective_user update) = ADMIN_ID →
  let w1 := (available_cmd ADMIN_ID transport update w).2 in
  let w2 := (away_cmd ADMIN_ID transport update w).2 in
  let said1 := reply_text (message update) NOW_AVAILABLE in
  let said2 := reply_text (message update) NOW_AWAY in
  (getAvailability (bot_data w1) = true ∧
   forwarded_map (bot_data w1) = forwarded_map (bot_data w) ∧
   emitted w w1 = [Sent said1 (transport (trace w) said1)]) ∧
  (getAvailability (bot_data w2) = false ∧
   forwarded_map (bot_data w2) = forwarded_map (bot_data w) ∧
   emitted w w2 = [Sent said2 (transport (trace w) said2)]).
Proof.
  intros Hadmin. cbv zeta.
  rewrite available_cmd_admin, away_cmd_admin by done. cbv zeta.
  cbn [snd]. rewrite !emitted_app. done.
Qed.

(** X5: of two availability commands of the administrator the later one
    decides the flag, whatever the transport did with either
    confirmation. *)
Theorem last_command_wins (first second : Update) (w : World) :
  user_id (effective_user first) = ADMIN_ID →
  user_id (effective_user second) = ADMIN_ID →
  getAvailability
    (bot_data (away_cmd ADMIN_ID transport second
                 (available_cmd ADMIN_ID transport first w).2).2) = false ∧
  getAvailability
    (bot_data (available_cmd ADMIN_ID transport second
                 (away_cmd ADMIN_ID transport first w).2).2) = true.
Proof.
  intros H1 H2. split.
  - by rewrite away_cmd_admin.
  - by rewrite available_cmd_admin.
Qed.

(** ** The administrator's reply *)

(** X6: the reply handler never writes to the dictionary: routing table
    and availability flag are the same afterwards, for every update and
    whatever the transport does. *)
Theorem admin_reply_keeps_state (update : Update) (w : World) :
  bot_data (admin_reply_handler ADMIN_ID transport update w).2 = bot_data w.
Proof.
  change (wp (admin_reply_handler ADMIN_ID transport update) w
            (λ _ w', bot_data w' = bot_data w)).
  unfold admin_reply_handler. cbv zeta.
  repeat wp_step; reflexivity.
Qed.

(** X7: what a reply of the administrator to a tracked message does.
    The first call delivers to the recorded conversation: the text as
    it is when the reply has one, else the reply itself forwarded.  If
    it goes through, the success text follows; if the delivery raises,
    or the success text itself raises although the delivery went
    through, the failure text is reported instead; only a raising
    failure report makes the handler raise. *)
Theorem admin_reply_outcomes (update : Update) (w : World) (replied o : Z) :
  user_id (effective_user update) = ADMIN_ID →
  reply_to_message (message update) = Some replied →
  resolveOrigin replied (bot_data w) = Some o → o ≠ 0 →
  let msg := message update in
  let deliver :=
    if truthy_str (text msg) then send_message o (default "" (text msg))
    else forward_message o (chat_id msg) (message_id msg) in
  let told t := reply_text msg t in
  let result (oc : option Z) : Result unit :=
    match oc with Some _ => Ok tt | None => Raise end in
  let run := admin_reply_handler ADMIN_ID transport update w in
  (∃ i j, emitted w run.2 = [Sent deliver (Some i);
                             Sent (told SENT_TO_USER) (Some j)] ∧
          run.1 = Ok tt) ∨
  (∃ i oc, emitted w run.2 = [Sent deliver (Some i);
                              Sent (told SENT_TO_USER) None;
                              Sent (told FAILED_TO_SEND) oc] ∧
           run.1 = result oc) ∨
  (∃ oc, emitted w run.2 = [Sent deliver None;
                            Sent (told FAILED_TO_SEND) oc] ∧
         run.1 = result oc).
Proof.
  intros Hadmin Hreply Ho Hne. cbv zeta.
  set (deliver := if truthy_str (text (message update)) then _ else _).
  change (wp (admin_reply_handler ADMIN_ID transport update) w
    (λ r w',
      (∃ i j, emitted w w' = [Sent deliver (Some i);
          Sent (reply_text (message update) SENT_TO_USER) (Some j)] ∧
          r = Ok tt) ∨
      (∃ i oc, emitted w w' = [Sent deliver (Some i);
          Sent (reply_text (message update) SENT_TO_USER) None;
          Sent (reply_text (message update) FAILED_TO_SEND) oc] ∧
          r = match oc with Some _ => Ok tt | None => Raise end) ∨
      (∃ oc, emitted w w' = [Sent deliver None;
          Sent (reply_text (message update) FAILED_TO_SEND) oc] ∧
          r = match oc with Some _ => Ok tt | None => Raise end))).
  unfold admin_reply_handler. cbv zeta.
  rewrite decide_False by (intros Hx; done). rewrite Hreply.
  wp_step. wp_step. rewrite Ho. cbn [truthy_int default].
  destruct (Z.eqb_spec o 0) as [|_]; [done|]. cbn [negb].
  subst deliver.
  destruct (truthy_str (text (message update))).
  all: repeat wp_step; settle_trace; eauto 10.
Qed.

(** ** A message of a user *)

(** X8: whatever the state and the transport, the first outside call of
    the inbound handler is the attempt to forward the message, from its
    chat, to the administrator; every answer to the user comes after
    it. *)
Theorem forward_comes_first (update : Update) (w : World) :
  ∃ outcome rest,
    emitted w (handle_message ADMIN_ID transport genai_client update w).2
    = Sent (forward_message ADMIN_ID (chat_id (message update))
              (message_id (message update))) outcome :: rest.
Proof.
  change (wp (handle_message ADMIN_ID transport genai_client update) w
            (λ _ w', ∃ outcome rest, emitted w w'
               = Sent (forward_message ADMIN_ID (chat_id (message update))
                         (message_id (message update))) outcome :: rest)).
  unfold handle_message, effective_chat_id. cbv zeta.
  do 6 wp_step.
  all: repeat wp_step; settle_trace; eexists _, _; reflexivity.
Qed.

(** X9: the dictionary after a message is handled: when the forward
    went through, the id it produced is recorded for the chat of the
    message and nothing else changes; when the forward raised, nothing
    changes at all.  In particular the availability flag is never
    written. *)
Theorem handle_message_state (update : Update) (w : World) :
  let fwd := forward_message ADMIN_ID (chat_id (message update))
               (message_id (message update)) in
  bot_data (handle_message ADMIN_ID transport genai_client update w).2
  = match transport (trace w) fwd with
    | Some forwarded =>
        recordForward forwarded (chat_id (message update)) (bot_data w)
    | None => bot_data w
    end.
Proof.
  cbv zeta.
  change (wp (handle_message ADMIN_ID transport genai_client update) w
    (λ _ w', bot_data w'
       = match transport (trace w)
                 (forward_message ADMIN_ID (chat_id (message update))
                    (message_id (message update))) with
         | Some forwarded =>
             recordForward forwarded (chat_id (message update)) (bot_data w)
         | None => bot_data w
         end)).
  unfold handle_message, effective_chat_id. cbv zeta.
  do 6 wp_step; cbn [trace] in Hcall; rewrite Hcall.
  all: repeat wp_step; reflexivity.
Qed.

(** X10: the plain-text notification to the administrator is sent
    exactly when the forward raised, and then once: it names the
    sender, the sender's id and the text (empty for media).  After a
    forward that went through there is no [send_message] at all. *)
Theorem fallback_only_after_failed_forward (update : Update) (w : World) :
  let user := effective_user update in
  let fwd := forward_message ADMIN_ID (chat_id (message update))
               (message_id (message update)) in
  sent_messages
    (emitted w (handle_message ADMIN_ID transport genai_client update w).2)
  = match transport (trace w) fwd with
    | Some _ => []
    | None =>
        [(ADMIN_ID,
          "Message from " +:+ first_name user +:+ " (" +:+
          pretty (user_id user) +:+ "):" +:+ newline +:+
          str_or (text (message update)) "")]
    end.
Proof.
  cbv zeta.
  change (wp (handle_message ADMIN_ID transport genai_client update) w
    (λ _ w', sent_messages (emitted w w')
       = match transport (trace w)
                 (forward_message ADMIN_ID (chat_id (message update))
                    (message_id (message update))) with
         | Some _ => []
         | None =>
             [(ADMIN_ID,
               "Message from " +:+ first_name (effective_user update) +:+
               " (" +:+ pretty (user_id (effective_user update)) +:+ "):" +:+
               newline +:+ str_or (text (message update)) "")]
         end)).
  unfold handle_message, effective_chat_id. cbv zeta.
  do 6 wp_step; cbn [trace] in Hcall; rewrite Hcall.
  all: repeat wp_step; settle_trace; reflexivity.
Qed.

(** X11: without a generation client the inbound handler never calls
    the generation service and never raises, in either state of the
    flag and whatever the transport does. *)
Theorem no_client_no_generation (update : Update) (w : World) :
  let run := handle_message ADMIN_ID transport None update w in
  run.1 = Ok tt ∧ generation_calls (emitted w run.2) = 0%nat.
Proof.
  cbv zeta.
  change (wp (handle_message ADMIN_ID transport None update) w
            (λ r w', r = Ok tt ∧ generation_calls (emitted w w') = 0%nat)).
  unfold handle_message, effective_chat_id. cbv zeta.
  repeat wp_step; settle_trace; done.
Qed.



(** X14: the only transport failure that leaves the inbound handler is
    that of the I-am-replying notice: when the handler raises, the
    administrator was away, a client was configured, and the last
    outside call is that notice, raising.  Failures of the forward, the
    notification, the acknowledgment, the generated reply and the
    closing notice are all caught. *)
Theorem raises_only_on_notice (update : Update) (w : World) :
  let run := handle_message ADMIN_ID transport genai_client update w in
  run.1 = Raise →
  getAvailability (bot_data w) = false ∧ is_Some genai_client ∧
  ∃ before, emitted w run.2
    = before ++ [Sent (reply_text (message update) IM_REPLYING) None].
Proof.
  cbv zeta.
  change (wp (handle_message ADMIN_ID transport genai_client update) w
    (λ r w', r = Raise →
       getAvailability (bot_data w) = false ∧ is_Some genai_client ∧
       ∃ before, emitted w w'
         = before ++ [Sent (reply_text (message update) IM_REPLYING) None])).
  unfold handle_message, effective_chat_id. cbv zeta.
  destruct (getAvailability (bot_data w)) eqn:Hav;
    destruct genai_client as [client|].
  all: repeat wp_step; try done.
  all: settle_trace; intros _; split; [done|]; split; [eauto|].
  all: first [ by eexists [_] | by eexists [_; _] ].
Qed.

(** X15: while the administrator is available the user gets exactly one
    answer, the fixed text, the handler returns normally, and no
    generation call is made; this holds right after the administrator's
    [available] command, whatever happened to its confirmation. *)
Theorem message_after_available (command update : Update) (w : World) :
  user_id (effective_user command) = ADMIN_ID →
  let w1 := (available_cmd ADMIN_ID transport command w).2 in
  let run := handle_message ADMIN_ID transport genai_client update w1 in
  run.1 = Ok tt ∧ replies (emitted w1 run.2) = [NOTE_48H] ∧
  generation_calls (emitted w1 run.2) = 0%nat.
Proof.
  intros Hadmin. cbv zeta.
  set (w1 := (available_cmd ADMIN_ID transport command w).2).
  assert (getAvailability (bot_data w1) = true) as Hav.
  { subst w1. by rewrite available_cmd_admin. }
  clearbody w1.
  change (wp (handle_message ADMIN_ID transport genai_client update) w1
    (λ r w', r = Ok tt ∧ replies (emitted w1 w') = [NOTE_48H] ∧
             generation_calls (emitted w1 w') = 0%nat)).
  unfold handle_message, effective_chat_id. cbv zeta.
  do 6 (wp_step; try wp_step).
  all: repeat (wp_step; try congruence); settle_trace; done.
Qed.

(** X16: end to end.  When a user's message is forwarded and the
    administrator then replies with a text to the forwarded copy, the
    first call of the reply handler sends exactly that text to the chat
    the message came from (chat ids are never [0]). *)
Theorem forward_then_admin_reply
    (from_user from_admin : Update) (w : World) (forwarded : Z) :
  transport (trace w)
    (forward_message ADMIN_ID (chat_id (message from_user))
       (message_id (message from_user))) = Some forwarded →
  chat_id (message from_user) ≠ 0 →
  user_id (effective_user from_admin) = ADMIN_ID →
  reply_to_message (message from_admin) = Some forwarded →
  truthy_str (text (message from_admin)) = true →
  let w1 := (handle_message ADMIN_ID transport genai_client from_user w).2 in
  ∃ outcome rest,
    emitted w1 (admin_reply_handler ADMIN_ID transport from_admin w1).2
    = Sent (send_message (chat_id (message from_user))
              (default "" (text (message from_admin)))) outcome :: rest.
Proof.
  intros Hfwd Hchat Hadmin Hreply Htext. cbv zeta.
  eapply admin_reply_routes; try done.
  by apply handle_message_records.
Qed.

End MoreHandlerProperties.

(** * Start-up *)

Section StartupProperties.

Import Startup.

Context (int : string → option Z) (HAS_GEMINI : bool)
        (Client : string → option (list Event → string → option Response)).

Lemma truthy_str_Some (o : option string) :
  truthy_str o = true → ∃ s, o = Some s ∧ s ≠ "".
Proof. destruct o as [[|c s]|]; try done. intros _. by eexists. Qed.

(** X17: whatever the environment holds, settings that start-up lets
    through carry the token of the environment, which is not empty, and
    an administrator id that [int] read from [ADMIN_ID] and that is not
    [0]. *)
Theorem started_settings_valid (environ : gmap string string) (s : Settings) :
  module_init int HAS_GEMINI Client environ = Started s →
  environ !! "TELEGRAM_TOKEN" = Some (TELEGRAM_TOKEN s) ∧
  TELEGRAM_TOKEN s ≠ "" ∧
  int (default "0" (environ !! "ADMIN_ID")) = Some (ADMIN_ID s) ∧
  ADMIN_ID s ≠ 0.
Proof.
  unfold module_init. intros Hinit.
  destruct (int _) as [admin|]; [|done].
  destruct (truthy_str (environ !! "TELEGRAM_TOKEN")) eqn:Htoken; [|done].
  cbn [negb] in Hinit.
  destruct (Z.eqb_spec admin 0) as [|Hadmin]; [done|].
  injection Hinit as <-. cbn.
  apply truthy_str_Some in Htoken as (token & -> & Hne). done.
Qed.

(** X18: with [ADMIN_ID] unset (and [int "0"] being [0]) start-up ends
    in [SystemExit]: for the missing token when that is unset or empty
    too, else for the missing administrator id. *)
Theorem missing_admin_id_refused (environ : gmap string string) :
  int "0" = Some 0 →
  environ !! "ADMIN_ID" = None →
  module_init int HAS_GEMINI Client environ
  = SystemExit
      (if truthy_str (environ !! "TELEGRAM_TOKEN")
       then "ADMIN_ID not set (your Telegram numeric id)"
       else "TELEGRAM_TOKEN not set in environment").
Proof.
  intros Hint Hadmin. unfold module_init. rewrite Hadmin. cbn [default].
  rewrite Hint. by destruct (truthy_str _).
Qed.

(** X19: a generation client exists after start-up only if the library
    was importable and a non-empty key was found, [GEMINI_API_KEY]
    first and [GOOGLE_API_KEY] when that one is unset or empty; the
    client is the one built from that key. *)
Theorem client_needs_key (environ : gmap string string) (s : Settings)
    (client : list Event → string → option Response) :
  module_init int HAS_GEMINI Client environ = Started s →
  genai_client s = Some client →
  HAS_GEMINI = true ∧
  ∃ key, key ≠ "" ∧ Client key = Some client ∧
    (environ !! "GEMINI_API_KEY" = Some key ∨
     (truthy_str (environ !! "GEMINI_API_KEY") = false ∧
      environ !! "GOOGLE_API_KEY" = Some key)).
Proof.
  unfold module_init. intros Hinit Hclient.
  destruct (int _) as [admin|]; [|done].
  destruct (negb _); [done|]. destruct (admin =? 0); [done|].
  injection Hinit as <-. cbn in Hclient.
  destruct HAS_GEMINI; [|done]. split; [done|]. cbn [andb] in Hclient.
  destruct (truthy_str (opt_or _ _)) eqn:Hkey; [|done].
  apply truthy_str_Some in Hkey as (key & Hkey & Hne).
  rewrite Hkey in Hclient. exists key. split; [done|]. split; [done|].
  unfold opt_or in Hkey.
  destruct (truthy_str (environ !! "GEMINI_API_KEY")); eauto.
Qed.

(** X20: with neither key in the environment no client is built, and
    the adapter answers every prompt with the fixed text for a missing
    client without calling anything. *)
Theorem no_key_no_client (environ : gmap string string) (s : Settings)
    (prompt : string) (w : World) :
  module_init int HAS_GEMINI Client environ = Started s →
  environ !! "GEMINI_API_KEY" = None →
  environ !! "GOOGLE_API_KEY" = None →
  genai_client s = None ∧
  ask_gemini (genai_client s) prompt w = (Ok NO_CLIENT_FALLBACK, w).
Proof.
  unfold module_init. intros Hinit Hk1 Hk2.
  destruct (int _) as [admin|]; [|done].
  destruct (negb _); [done|]. destruct (admin =? 0); [done|].
  injection Hinit as <-. cbn. rewrite Hk1, Hk2. cbn.
  rewrite andb_false_r. done.
Qed.

End StartupProperties.

(** ** The further properties on concrete runs *)

Module MoreRuns.

Import Sample MoreSample Startup.

Lemma admin_sets_availability_witness :
  getAvailability
    (bot_data (available_cmd ADMIN delivers (from_admin admin_available_cmd)
                 fresh).2) = true ∧
  getAvailability
    (bot_data (away_cmd ADMIN delivers (from_admin admin_available_cmd)
                 admin_present).2) = false.
Proof.
  split.
  - apply (admin_sets_availability ADMIN delivers
             (from_admin admin_available_cmd) fresh). reflexivity.
  - apply (admin_sets_availability ADMIN delivers
             (from_admin admin_available_cmd) admin_present). reflexivity.
Defined.

Lemma last_command_wins_witness :
  getAvailability
    (bot_data (away_cmd ADMIN delivers (from_admin admin_away_cmd)
                 (available_cmd ADMIN delivers
                    (from_admin admin_available_cmd) fresh).2).2) = false.
Proof.
  apply (last_command_wins ADMIN delivers (from_admin admin_available_cmd)
           (from_admin admin_away_cmd) fresh); reflexivity.
Defined.

Lemma admin_reply_outcomes_witness :
  let run := admin_reply_handler ADMIN delivers (from_admin admin_answer)
               (world_of table_31_7) in
  emitted (world_of table_31_7) run.2
  = [Sent (send_message 7 "On my way") (Some 100);
     Sent (reply_text admin_answer SENT_TO_USER) (Some 101)] ∧
  run.1 = Ok tt.
Proof.
  destruct (admin_reply_outcomes ADMIN delivers (from_admin admin_answer)
              (world_of table_31_7) 31 7)
    as [(i & j & He & Hr)|[(i & oc & He & Hr)|(oc & He & Hr)]];
    try reflexivity; try discriminate.
  all: split; [reflexivity | exact Hr || reflexivity].
Defined.



Lemma raises_only_on_notice_witness :
  getAvailability (bot_data fresh) = false ∧ is_Some (Some a_client) ∧
  ∃ before,
    emitted fresh
      (handle_message ADMIN drops_notice (Some a_client) (from_alice hello)
         fresh).2
    = before ++ [Sent (reply_text hello IM_REPLYING) None].
Proof.
  apply (raises_only_on_notice ADMIN drops_notice (Some a_client)
           (from_alice hello) fresh).
  reflexivity.
Defined.

Lemma message_after_available_witness :
  let w1 := (available_cmd ADMIN delivers (from_admin admin_available_cmd)
               fresh).2 in
  let run := handle_message ADMIN delivers polite_client (from_alice hello)
               w1 in
  run.1 = Ok tt ∧ replies (emitted w1 run.2) = [NOTE_48H] ∧
  generation_calls (emitted w1 run.2) = 0%nat.
Proof.
  apply (message_after_available ADMIN delivers polite_client
           (from_admin admin_available_cmd) (from_alice hello) fresh).
  reflexivity.
Defined.

Lemma forward_then_admin_reply_witness :
  let w1 := (handle_message ADMIN delivers no_client (from_alice hello)
               fresh).2 in
  ∃ outcome rest,
    emitted w1 (admin_reply_handler ADMIN delivers
                  (from_admin answer_to_100) w1).2
    = Sent (send_message 7 "On my way") outcome :: rest.
Proof.
  apply (forward_then_admin_reply ADMIN delivers no_client
           (from_alice hello) (from_admin answer_to_100) fresh 100);
    try reflexivity.
  discriminate.
Defined.

Lemma started_settings_valid_witness :
  ∃ s, module_init int true make_client environ = Started s ∧
       TELEGRAM_TOKEN s = "123:abc" ∧ ADMIN_ID s = 1000 ∧
       ADMIN_ID s ≠ 0.
Proof.
  eexists. split; [reflexivity|]. split; [reflexivity|]. split; [reflexivity|].
  eapply (started_settings_valid int true make_client environ). reflexivity.
Defined.

Lemma missing_admin_id_refused_witness :
  module_init int true make_client environ_without_admin
  = SystemExit "ADMIN_ID not set (your Telegram numeric id)".
Proof.
  apply (missing_admin_id_refused int true make_client environ_without_admin);
    reflexivity.
Defined.

Lemma client_needs_key_witness :
  ∃ key, key ≠ "" ∧ make_client key = Some a_client ∧
    (environ_with_google_key !! "GEMINI_API_KEY" = Some key ∨
     (truthy_str (environ_with_google_key !! "GEMINI_API_KEY") = false ∧
      environ_with_google_key !! "GOOGLE_API_KEY" = Some key)).
Proof.
  eapply (client_needs_key int true make_client environ_with_google_key);
    reflexivity.
Defined.

Lemma no_key_no_client_witness :
  ∃ s, module_init int true make_client environ = Started s ∧
       genai_client s = None ∧
       ask_gemini (genai_client s) "Hello" fresh
       = (Ok NO_CLIENT_FALLBACK, fresh).
Proof.
  eexists. split; [reflexivity|].
  eapply (no_key_no_client int true make_client environ); reflexivity.
Defined.

End MoreRuns.
